(** * Job Listing Tracker: a shallow embedding of [main.py]

    The program fetches one page, parses it with BeautifulSoup
    ([html.parser]) and extracts job postings, either with the RemoteOK
    extractor or with a generic one that tries a list of CSS selectors.

    The embedding follows the source function by function:
    - Python [str] values are [string]s, with [startswith], [in],
      [strip] and [join] written out;
    - the parsed document is a tree of [PageElement]s, as bs4 builds it;
    - [select] / [select_one] are the CSS queries of the source, over the
      fragment of CSS the source uses;
    - [requests.get] is a function from URLs to a response or a raised
      exception, passed explicitly to every function that fetches. *)

From Stdlib Require Import List String Ascii Bool Arith Lia.
Import ListNotations.
Open Scope string_scope.
Open Scope bool_scope.

(** ** Python strings *)

Module PyStr.

(** [s.startswith(p)] *)
Definition startswith (s p : string) : bool := String.prefix p s.

(** [needle in hay] on two strings: substring test. *)
Fixpoint contains (needle hay : string) : bool :=
  String.prefix needle hay
  || match hay with
     | EmptyString => false
     | String _ rest => contains needle rest
     end.

(** [c.isspace()] for a code point below 256. *)
Definition isspace (c : ascii) : bool :=
  let n := nat_of_ascii c in
  (((9 <=? n) && (n <=? 13)) || ((28 <=? n) && (n <=? 32))
   || (n =? 133) || (n =? 160))%nat.

Fixpoint lstrip (s : string) : string :=
  match s with
  | EmptyString => EmptyString
  | String c rest => if isspace c then lstrip rest else s
  end.

Definition reverse (s : string) : string :=
  string_of_list_ascii (rev (list_ascii_of_string s)).

Definition rstrip (s : string) : string := reverse (lstrip (reverse s)).

(** [s.strip()] *)
Definition strip (s : string) : string := rstrip (lstrip s).

(** [sep.join(parts)] *)
Definition join (sep : string) (parts : list string) : string :=
  String.concat sep parts.

(** Truth value of a string: [if s:] holds for a non-empty [s]. *)
Definition truthy (s : string) : bool :=
  match s with
  | EmptyString => false
  | String _ _ => true
  end.

End PyStr.

(** ** The parsed document

    A bs4 tree has text nodes and tags.  A tag carries its name, its
    [class] attribute, which the parser stores as the list of its
    whitespace-separated tokens (absent when the tag has no [class]
    attribute), its other attributes as a dictionary from names to
    strings, and its children in document order.  [html.parser] stores
    tag and attribute names in lower case. *)

#[local] Set Warnings "-register-all".

Inductive PageElement : Type :=
| NavigableString (text : string)
| Tag (name : string) (cls : option (list string))
      (attrs : list (string * string)) (contents : list PageElement).

Module Soup.

Definition tag_name (e : PageElement) : option string :=
  match e with
  | Tag n _ _ _ => Some n
  | NavigableString _ => None
  end.

(** Lookup in an attribute dictionary. *)
Fixpoint lookup (key : string) (d : list (string * string)) : option string :=
  match d with
  | [] => None
  | (k, v) :: rest => if String.eqb k key then Some v else lookup key rest
  end.

(** [el.get('class', [])] *)
Definition get_class (e : PageElement) : list string :=
  match e with
  | Tag _ (Some tokens) _ _ => tokens
  | _ => []
  end.

(** [el.get(key, default)] for a string-valued attribute. *)
Definition get (e : PageElement) (key default : string) : string :=
  match e with
  | Tag _ _ attrs _ =>
      match lookup key attrs with
      | Some v => v
      | None => default
      end
  | NavigableString _ => default
  end.

(** The value a CSS attribute selector sees: the string itself, or the
    tokens of a multi-valued attribute joined by one space. *)
Definition attribute_value (e : PageElement) (key : string) : option string :=
  match e with
  | Tag _ c attrs _ =>
      if String.eqb key "class"
      then option_map (PyStr.join " ") c
      else lookup key attrs
  | NavigableString _ => None
  end.

(** [el.text]: the text nodes below [el], concatenated in document order. *)
Fixpoint text (e : PageElement) : string :=
  match e with
  | NavigableString s => s
  | Tag _ _ _ cs => String.concat "" (map text cs)
  end.

(** All nodes strictly below [e], in document order. *)
Fixpoint descendants (e : PageElement) : list PageElement :=
  match e with
  | NavigableString _ => []
  | Tag _ _ _ cs => flat_map (fun c => c :: descendants c) cs
  end.

End Soup.

(** ** CSS selectors

    The source only uses compound selectors (an optional tag name, class
    tokens, attribute tests) and comma-separated lists of them. *)

Inductive AttrTest : Type :=
| HasAttr (key : string)                      (* [key]         *)
| AttrContains (key : string) (sub : string). (* [key*="sub"]  *)

Record Compound : Type := mkCompound {
  c_tag : option string;
  c_classes : list string;
  c_attrs : list AttrTest
}.

(** A selector is a comma-separated list of compounds. *)
Definition Selector : Type := list Compound.

Module Css.

Definition match_tag (want : option string) (e : PageElement) : bool :=
  match want, Soup.tag_name e with
  | _, None => false
  | None, Some _ => true
  | Some w, Some n => String.eqb w n
  end.

Definition has_class (e : PageElement) (c : string) : bool :=
  existsb (String.eqb c) (Soup.get_class e).

Definition match_attr (e : PageElement) (t : AttrTest) : bool :=
  match t with
  | HasAttr key =>
      match Soup.attribute_value e key with
      | Some _ => true
      | None => false
      end
  | AttrContains key sub =>
      match Soup.attribute_value e key with
      | Some v => PyStr.truthy sub && PyStr.contains sub v
      | None => false
      end
  end.

Definition match_compound (c : Compound) (e : PageElement) : bool :=
  match_tag (c_tag c) e
  && forallb (has_class e) (c_classes c)
  && forallb (match_attr e) (c_attrs c).

(** An element matches a selector list when it matches one of its
    members. *)
Definition matches (s : Selector) (e : PageElement) : bool :=
  existsb (fun c => match_compound c e) s.

(** [el.select(s)]: the descendants of [el] that match, in document
    order. *)
Definition select (s : Selector) (e : PageElement) : list PageElement :=
  filter (matches s) (Soup.descendants e).

(** [el.select_one(s)]: the first match in document order, or [None]. *)
Definition select_one (s : Selector) (e : PageElement) : option PageElement :=
  hd_error (select s e).

Definition tag (n : string) : Compound := mkCompound (Some n) [] [].
Definition tag_class (n c : string) : Compound := mkCompound (Some n) [c] [].
Definition class (c : string) : Compound := mkCompound None [c] [].
Definition attr (t : AttrTest) : Compound := mkCompound None [] [t].
Definition tag_attr (n : string) (t : AttrTest) : Compound :=
  mkCompound (Some n) [] [t].

End Css.

(** ** The network

    [requests.get(url, headers=..., timeout=10)] either raises or returns
    a response; [raise_for_status] raises on a 4xx or 5xx status.  The
    response body is kept as the tree [BeautifulSoup(response.content,
    'html.parser')] builds from it. *)

Inductive Exception : Type :=
| ConnectionError
| Timeout
| HTTPError (status : nat)
| OtherException (msg : string).

Record Response : Type := mkResponse {
  status_code : nat;
  content : PageElement
}.

(** A computation that may raise. *)
Definition Raises (A : Type) : Type := Exception + A.

Definition ret {A : Type} (a : A) : Raises A := inr a.
Definition raise {A : Type} (e : Exception) : Raises A := inl e.
Definition bind {A B : Type} (m : Raises A) (k : A -> Raises B) : Raises B :=
  match m with
  | inl e => inl e
  | inr a => k a
  end.

Notation "x <- m ;; k" := (bind m (fun x => k))
  (at level 61, m at next level, right associativity).

Definition Web : Type := string -> Raises Response.

Definition raise_for_status (r : Response) : Raises unit :=
  if ((400 <=? status_code r) && (status_code r <? 600))%nat
  then raise (HTTPError (status_code r))
  else ret tt.

(** The first lines of both extractors: fetch, check the status, parse.
    (The one-second [time.sleep] before the RemoteOK request has no
    effect on the result.) *)
Definition fetch_soup (web : Web) (url : string) : Raises PageElement :=
  response <- web url ;;
  _ <- raise_for_status response ;;
  ret (content response).

(** ** Job postings *)

Record Job : Type := mkJob {
  company : string;
  position : string;
  skills : string;
  link : string;
  source : string
}.

(** [jobs.append(j)] when the loop body produced [Some j]; a body that
    ends in [continue], or falls through without appending, leaves the
    list as it is. *)
Definition append_if (jobs : list Job) (r : option Job) : list Job :=
  match r with
  | Some j => jobs ++ [j]
  | None => jobs
  end.

(** ** [scrape_remoteok] *)

Module RemoteOK.

Definition base_url : string := "https://remoteok.com".

(** ['featured' in job.get('class', [])] *)
Definition is_featured (job : PageElement) : bool :=
  existsb (String.eqb "featured") (Soup.get_class job).

(** Lines 55-57: the [data-url] attribute, made absolute. *)
Definition job_link (job : PageElement) : string :=
  let link := Soup.get job "data-url" "" in
  if PyStr.truthy link && negb (PyStr.startswith link "http")
  then base_url ++ link
  else link.

(** The body of the [for] loop, for one row.  A tag is always true in a
    condition, so [company_elem and position_elem] holds when both were
    found. *)
Definition row (job : PageElement) : option Job :=
  if is_featured job then None
  else
    let company_elem := Css.select_one [Css.tag "h3"] job in
    let position_elem := Css.select_one [Css.tag "h2"] job in
    let tags := Css.select [Css.class "tag"] job in
    match company_elem, position_elem with
    | Some company_elem, Some position_elem =>
        Some {| company := PyStr.strip (Soup.text company_elem);
                position := PyStr.strip (Soup.text position_elem);
                skills := PyStr.join ", "
                            (map (fun t => PyStr.strip (Soup.text t))
                                 (firstn 5 tags));
                link := job_link job;
                source := "RemoteOK" |}
    | _, _ => None
    end.

(** [soup.select('tr.job')] *)
Definition job_rows (soup : PageElement) : list PageElement :=
  Css.select [Css.tag_class "tr" "job"] soup.

(** The loop over [job_rows[:30]], starting from [jobs = []]. *)
Definition extract (soup : PageElement) : list Job :=
  fold_left (fun jobs job => append_if jobs (row job))
            (firstn 30 (job_rows soup)) [].

Definition scrape_remoteok (web : Web) (url : string) : Raises (list Job) :=
  soup <- fetch_soup web url ;;
  ret (extract soup).

End RemoteOK.

(** ** [scrape_generic_jobs] *)

Module Generic.

Definition job_selectors : list Selector :=
  [ [Css.tag_class "div" "job"];
    [Css.tag_class "div" "job-listing"];
    [Css.tag_class "article" "job"];
    [Css.tag_class "li" "job"];
    [Css.tag_attr "div" (AttrContains "class" "job")];
    [Css.tag_attr "div" (AttrContains "class" "listing")] ].

(** ['h2, h3, .title, [class*="title"]'] *)
Definition title_selector : Selector :=
  [ Css.tag "h2"; Css.tag "h3"; Css.class "title";
    Css.attr (AttrContains "class" "title") ].

(** ['.company, [class*="company"]'] *)
Definition company_selector : Selector :=
  [ Css.class "company"; Css.attr (AttrContains "class" "company") ].

(** ['a[href]'] *)
Definition link_selector : Selector := [ Css.tag_attr "a" (HasAttr "href") ].

(** The body of the inner [for] loop, for one matched element. *)
Definition element (url : string) (job_elem : PageElement) : option Job :=
  let title := Css.select_one title_selector job_elem in
  let company := Css.select_one company_selector job_elem in
  let link := Css.select_one link_selector job_elem in
  match title with
  | Some title =>
      Some {| company := match company with
                         | Some c => PyStr.strip (Soup.text c)
                         | None => "N/A"
                         end;
              position := PyStr.strip (Soup.text title);
              skills := "N/A";
              link := match link with
                      | Some l => Soup.get l "href" ""
                      | None => ""
                      end;
              source := url |}
  | None => None
  end.

(** [soup.select(selector)[:20]] *)
Definition job_elements (selector : Selector) (soup : PageElement)
  : list PageElement :=
  firstn 20 (Css.select selector soup).

(** The outer [for] loop over the selectors that are left, with the
    current value of [jobs].  A selector without matches is passed over;
    otherwise the inner loop runs and the outer one breaks as soon as
    [jobs] is not empty. *)
Fixpoint try_selectors (url : string) (soup : PageElement)
    (selectors : list Selector) (jobs : list Job) : list Job :=
  match selectors with
  | [] => jobs
  | selector :: rest =>
      match job_elements selector soup with
      | [] => try_selectors url soup rest jobs
      | elems =>
          let jobs := fold_left (fun js e => append_if js (element url e))
                                elems jobs in
          match jobs with
          | [] => try_selectors url soup rest jobs
          | _ :: _ => jobs
          end
      end
  end.

Definition extract (url : string) (soup : PageElement) : list Job :=
  try_selectors url soup job_selectors [].

Definition scrape_generic_jobs (web : Web) (url : string) : Raises (list Job) :=
  soup <- fetch_soup web url ;;
  ret (extract url soup).

End Generic.

(** ** [scrape_data] and [main] *)

(** The row added when nothing was found. *)
Definition sentinel (url : string) : Job :=
  {| company := "N/A";
     position := "No jobs found";
     skills := "N/A";
     link := url;
     source := url |}.

(** The extractor call inside the [try] block. *)
Definition selected_extractor (web : Web) (url : string) : Raises (list Job) :=
  if PyStr.contains "remoteok.com" url
  then RemoteOK.scrape_remoteok web url
  else Generic.scrape_generic_jobs web url.

(** The rows of the returned data frame, in order. *)
Definition scrape_data (web : Web) (url : string) : list Job :=
  let data := match selected_extractor web url with
              | inr jobs => jobs
              | inl _ => []          (* except Exception: warn, keep [] *)
              end in
  match data with
  | [] => data ++ [sentinel url]
  | _ :: _ => data
  end.

(** Lines 166-168 of [main]: the URL handed to [scrape_data]. *)
Definition main_url (arg : string) : string :=
  if negb (PyStr.startswith arg "http://" || PyStr.startswith arg "https://")
  then "https://" ++ arg
  else arg.

Definition default_url : string := "https://remoteok.com/remote-python-jobs".

(** [main], up to the data frame that is written out; [url_arg] is the
    value of [--url] when given. *)
Definition main (web : Web) (url_arg : option string) : list Job :=
  let url := match url_arg with
             | Some u => u
             | None => default_url
             end in
  scrape_data web (main_url url).

(** * Auxiliary definitions for the properties *)

Open Scope list_scope.

(** The records a loop with body [body] appends, in order. *)
Definition emitted {A : Type} (body : A -> option Job) (l : list A) : list Job :=
  flat_map (fun x => match body x with
                     | Some j => [j]
                     | None => []
                     end) l.

(** The records one selector yields on a document. *)
Definition selector_records (url : string) (soup : PageElement)
    (selector : Selector) : list Job :=
  emitted (Generic.element url) (Generic.job_elements selector soup).

Definition productive (url : string) (soup : PageElement)
    (selector : Selector) : bool :=
  match selector_records url soup selector with
  | [] => false
  | _ :: _ => true
  end.

(** The extractor of the [try] block failed: it raised, or it returned no
    record. *)
Definition found_nothing (web : Web) (url : string) : Prop :=
  selected_extractor web url = inr []
  \/ exists e, selected_extractor web url = inl e.

(** ** Sample pages *)

Module Pages.

Definition leaf (name txt : string) : PageElement :=
  Tag name None [] [NavigableString txt].

Definition leaf_class (name c txt : string) : PageElement :=
  Tag name (Some [c]) [] [NavigableString txt].

Definition document (body : list PageElement) : PageElement :=
  Tag "[document]" None [] body.

Definition serve (soup : PageElement) : Web :=
  fun _ => inr (mkResponse 200 soup).

(** A RemoteOK row: company, position, two tags, a relative link. *)
Definition row_a : PageElement :=
  Tag "tr" (Some ["job"]) [("data-url", "/job/1")]
    [ leaf "h3" "Company A"; leaf "h2" "Backend Engineer";
      leaf_class "span" "tag" "Python"; leaf_class "span" "tag" "AWS" ].

Definition job_a : Job :=
  {| company := "Company A"; position := "Backend Engineer";
     skills := "Python, AWS"; link := "https://remoteok.com/job/1";
     source := "RemoteOK" |}.

(** A featured row that has a company and a position. *)
Definition row_featured : PageElement :=
  Tag "tr" (Some ["job"; "featured"]) [("data-url", "/job/2")]
    [ leaf "h3" "Sponsor"; leaf "h2" "Promoted role" ].

(** A row whose class only contains a longer token. *)
Definition row_featured_top : PageElement :=
  Tag "tr" (Some ["job"; "featured-top"]) [("data-url", "https://jobs.example/9")]
    [ leaf "h3" "Company B"; leaf "h2" "Developer" ].

(** Thirty featured rows, then an ordinary one. *)
Definition featured_page : PageElement :=
  document [Tag "table" None [] (repeat row_featured 30 ++ [row_a])].

(** A row whose position element has no text. *)
Definition row_blank : PageElement :=
  Tag "tr" (Some ["job"]) [] [ leaf "h3" "Acme"; Tag "h2" None [] [] ].

Definition blank_page : PageElement := document [row_blank].

(** A row whose link has a scheme other than http. *)
Definition row_ftp : PageElement :=
  Tag "tr" (Some ["job"]) [("data-url", "ftp://example.com/job/1")]
    [ leaf "h3" "Acme"; leaf "h2" "Archivist" ].

(** A generic listing with a class-[title] element before a heading. *)
Definition card : PageElement :=
  Tag "div" (Some ["job-card"]) []
    [ leaf_class "span" "title" "Lead"; leaf "h2" "Heading";
      Tag "a" None [("href", "/x")] [] ].

(** A [div.job] without any title candidate. *)
Definition untitled : PageElement :=
  Tag "div" (Some ["job"]) [] [ leaf_class "span" "company" "ACME" ].

(** A listing with a title only. *)
Definition bare : PageElement :=
  Tag "div" (Some ["listing"]) [] [ leaf "h3" "Tester" ].

Definition generic_page : PageElement := document [untitled; card].

Definition listing_page : PageElement := document [bare].

Definition job_bare (url : string) : Job :=
  {| company := "N/A"; position := "Tester"; skills := "N/A";
     link := ""; source := url |}.

Definition remoteok_page : PageElement :=
  document [Tag "table" None [] [row_a; row_featured; row_featured_top]].

Definition job_b : Job :=
  {| company := "Company B"; position := "Developer"; skills := "";
     link := "https://jobs.example/9"; source := "RemoteOK" |}.

Definition job_card (url : string) : Job :=
  {| company := "N/A"; position := "Lead"; skills := "N/A";
     link := "/x"; source := url |}.

End Pages.

(** ** Readings of the specification, to compare the code with *)

Module Spec.

(** "A skipped featured row does not consume one of the 30 row slots":
    the first 30 rows that are not featured are the ones processed. *)
Definition remoteok_featured_free (soup : PageElement) : list Job :=
  emitted RemoteOK.row
    (firstn 30 (filter (fun job => negb (RemoteOK.is_featured job))
                       (RemoteOK.job_rows soup))).

(** "First a heading element, and only if no heading is present, an
    element whose class is [title] or contains [title]". *)
Definition title_by_preference (job_elem : PageElement) : option PageElement :=
  match Css.select_one [Css.tag "h2"; Css.tag "h3"] job_elem with
  | Some heading => Some heading
  | None =>
      Css.select_one
        [Css.class "title"; Css.attr (AttrContains "class" "title")] job_elem
  end.

Definition is_alpha (c : ascii) : bool :=
  let n := nat_of_ascii c in
  (((65 <=? n) && (n <=? 90)) || ((97 <=? n) && (n <=? 122)))%nat.

Definition is_digit (c : ascii) : bool :=
  let n := nat_of_ascii c in ((48 <=? n) && (n <=? 57))%nat.

(** The rest of a scheme name, up to its colon. *)
Fixpoint scheme_tail (s : string) : bool :=
  match s with
  | EmptyString => false
  | String c rest =>
      if Ascii.eqb c ":" then true
      else if is_alpha c || is_digit c
              || Ascii.eqb c "+" || Ascii.eqb c "-" || Ascii.eqb c "."
           then scheme_tail rest
           else false
  end.

(** "Starts with a scheme": a letter, then letters, digits, [+], [-] or
    [.], then a colon, as URLs write their scheme. *)
Definition has_scheme (s : string) : bool :=
  match s with
  | EmptyString => false
  | String c rest => is_alpha c && scheme_tail rest
  end.

End Spec.

(** An element the title selector of the generic extractor accepts: an
    [h2], an [h3], or a tag with the class token [title] or with [title]
    somewhere in its class attribute. *)
Definition is_title_candidate (e : PageElement) : bool :=
  match e with
  | Tag name cls _ _ =>
      String.eqb "h2" name || String.eqb "h3" name
      || match cls with
         | Some tokens =>
             existsb (String.eqb "title") tokens
             || PyStr.contains "title" (PyStr.join " " tokens)
         | None => false
         end
  | NavigableString _ => false
  end.

(** ** Whitespace at the ends of a string *)

(** [lstrip] on a list of characters. *)
Fixpoint lstrip_chars (l : list ascii) : list ascii :=
  match l with
  | [] => []
  | c :: rest => if PyStr.isspace c then lstrip_chars rest else l
  end.

Definition leading_space (s : string) : bool :=
  match s with
  | EmptyString => false
  | String c _ => PyStr.isspace c
  end.

Definition trailing_space (s : string) : bool :=
  leading_space (PyStr.reverse s).

(** Neither the first nor the last character is white space. *)
Definition trimmed (s : string) : bool :=
  negb (leading_space s) && negb (trailing_space s).

(** ** Failed requests *)

(** The request for [url] fails with [e]: [requests.get] raises [e], or
    the response has a 4xx or 5xx status and [e] is the [HTTPError] that
    [raise_for_status] raises for it. *)
Definition request_fails (web : Web) (url : string) (e : Exception) : Prop :=
  web url = inl e
  \/ exists r, web url = inr r
               /\ 400 <= status_code r < 600
               /\ e = HTTPError (status_code r).

Module Sites.

Definition remoteok_url : string := "https://remoteok.com/remote-dev-jobs".

Definition board_url : string := "https://jobs.example/list".

(** A server that answers every request with status 404 and a page that
    lists jobs. *)
Definition not_found : Web :=
  fun _ => inr (mkResponse 404 Pages.remoteok_page).

Definition unreachable : Web := fun _ => inl ConnectionError.

End Sites.

(** ** More sample pages *)

Module Samples.

(** A row with six tags and padded texts. *)
Definition row_six : PageElement :=
  Tag "tr" (Some ["job"]) [("data-url", "/job/6")]
    [ Pages.leaf "h3" "  Acme Corp  "; Pages.leaf "h2" " Site Reliability ";
      Pages.leaf_class "span" "tag" "Go"; Pages.leaf_class "span" "tag" "Rust";
      Pages.leaf_class "span" "tag" "SQL"; Pages.leaf_class "span" "tag" "AWS";
      Pages.leaf_class "span" "tag" "Linux"; Pages.leaf_class "span" "tag" "Kafka" ].

Definition job_six : Job :=
  {| company := "Acme Corp"; position := "Site Reliability";
     skills := "Go, Rust, SQL, AWS, Linux";
     link := "https://remoteok.com/job/6"; source := "RemoteOK" |}.

(** A row without tags and without a link. *)
Definition row_plain : PageElement :=
  Tag "tr" (Some ["job"]) []
    [ Pages.leaf "h3" "Initech"; Pages.leaf "h2" "Clerk" ].

Definition job_plain : Job :=
  {| company := "Initech"; position := "Clerk"; skills := "";
     link := ""; source := "RemoteOK" |}.

(** A row with a position and no company. *)
Definition row_no_company : PageElement :=
  Tag "tr" (Some ["job"]) [("data-url", "/job/7")]
    [ Pages.leaf "h2" "Ghost writer" ].

Definition board : PageElement :=
  Pages.document
    [Tag "table" None [] [row_six; row_no_company; row_plain]].

(** A page whose tags carry no class attribute. *)
Definition classless : PageElement :=
  Pages.document
    [ Tag "div" None [("id", "job")]
        [ Pages.leaf "h2" "Engineer"; Tag "a" None [("href", "/apply")] [] ] ].

End Samples.

(** The record [j] with its source replaced by [url]. *)
Definition with_source (url : string) (j : Job) : Job :=
  {| company := company j; position := position j; skills := skills j;
     link := link j; source := url |}.
(** * Properties *)

(** ** What a loop that appends emits *)

Section Loops.

Context {A : Type}.
Variable body : A -> option Job.

Lemma fold_append_if (l : list A) (jobs : list Job) :
  fold_left (fun js x => append_if js (body x)) l jobs = jobs ++ emitted body l.
Proof.
  revert jobs; induction l as [|x l IH]; intros jobs; simpl.
  - now rewrite app_nil_r.
  - rewrite IH. unfold append_if.
    destruct (body x); simpl; [now rewrite <- app_assoc | reflexivity].
Qed.

Lemma emitted_length (l : list A) : List.length (emitted body l) <= List.length l.
Proof.
  induction l as [|x l IH]; simpl; [lia|].
  rewrite length_app. destruct (body x); simpl; lia.
Qed.

Lemma emitted_in (l : list A) (j : Job) :
  In j (emitted body l) <-> exists x, In x l /\ body x = Some j.
Proof.
  unfold emitted. rewrite in_flat_map. split.
  - intros (x & Hx & Hj). exists x. split; [exact Hx|].
    destruct (body x); simpl in Hj; [|contradiction].
    destruct Hj as [->|[]]; reflexivity.
  - intros (x & Hx & Hb). exists x. split; [exact Hx|].
    rewrite Hb. now left.
Qed.

Lemma emitted_filter (keep : A -> bool) (l : list A) :
  (forall x, keep x = false -> body x = None) ->
  emitted body (filter keep l) = emitted body l.
Proof.
  intros Hskip. induction l as [|x l IH]; simpl; [reflexivity|].
  destruct (keep x) eqn:K; simpl; rewrite IH; [reflexivity|].
  now rewrite (Hskip x K).
Qed.

End Loops.

Lemma firstn_length_le {A : Type} (n : nat) (l : list A) :
  List.length (firstn n l) <= n.
Proof. rewrite length_firstn. lia. Qed.

Lemma in_firstn {A : Type} (n : nat) (l : list A) (x : A) :
  In x (firstn n l) -> In x l.
Proof.
  revert l; induction n as [|n IH]; intros [|y l]; simpl; try tauto.
  intros [->|H]; [now left | right; now apply IH].
Qed.

(** ** The extractors as list functions *)

Lemma remoteok_extract_emitted (soup : PageElement) :
  RemoteOK.extract soup
  = emitted RemoteOK.row (firstn 30 (RemoteOK.job_rows soup)).
Proof. unfold RemoteOK.extract. now rewrite fold_append_if. Qed.

Lemma try_selectors_find (url : string) (soup : PageElement)
    (selectors : list Selector) :
  Generic.try_selectors url soup selectors []
  = match find (productive url soup) selectors with
    | Some s => selector_records url soup s
    | None => []
    end.
Proof.
  induction selectors as [|s rest IH]; [reflexivity|].
  cbn [Generic.try_selectors find].
  unfold productive at 1. unfold selector_records at 1.
  destruct (Generic.job_elements s soup) as [|e es] eqn:E; [exact IH|].
  rewrite fold_append_if, app_nil_l.
  destruct (emitted (Generic.element url) (e :: es)) eqn:R; [exact IH|].
  unfold selector_records. now rewrite E, R.
Qed.

Lemma find_first_split {A : Type} (p : A -> bool) (l pre post : list A) (x : A) :
  l = pre ++ x :: post ->
  Forall (fun y => p y = false) pre ->
  p x = true ->
  find p l = Some x.
Proof.
  intros -> Hpre Hx. induction Hpre as [|y pre Hy _ IH]; simpl.
  - now rewrite Hx.
  - now rewrite Hy.
Qed.

Lemma find_none_all {A : Type} (p : A -> bool) (l : list A) :
  Forall (fun y => p y = false) l -> find p l = None.
Proof.
  induction 1 as [|y l Hy _ IH]; simpl; [reflexivity|]. now rewrite Hy.
Qed.

Lemma productive_false (url : string) (soup : PageElement) (s : Selector) :
  productive url soup s = false <-> selector_records url soup s = [].
Proof.
  unfold productive. destruct (selector_records url soup s); split;
    intros; congruence.
Qed.

Lemma productive_true (url : string) (soup : PageElement) (s : Selector) :
  productive url soup s = true <-> selector_records url soup s <> [].
Proof.
  unfold productive. destruct (selector_records url soup s); split;
    intros; congruence.
Qed.

Lemma generic_extract_in (url : string) (soup : PageElement) (j : Job) :
  In j (Generic.extract url soup) ->
  exists selector e,
    In selector Generic.job_selectors
    /\ In e (Generic.job_elements selector soup)
    /\ Generic.element url e = Some j
    /\ Generic.extract url soup = selector_records url soup selector.
Proof.
  unfold Generic.extract. rewrite try_selectors_find.
  destruct (find (productive url soup) Generic.job_selectors) as [s|] eqn:F;
    [|intros []].
  intros Hj. apply find_some in F. destruct F as [Hs _].
  apply emitted_in in Hj. destruct Hj as (e & He & Hb).
  exists s, e. auto.
Qed.

(** ** The sentinel row *)

(** C1. Whenever the selected extractor returns no record or raises,
    [scrape_data] returns exactly one row: company "N/A", position
    "No jobs found", skills "N/A", link and source equal to the requested
    URL.  The returned rows are therefore never empty, whatever the
    extractor did. *)
Theorem scrape_data_sentinel (web : Web) (url : string) :
  scrape_data web url <> []
  /\ (found_nothing web url ->
      scrape_data web url
      = [ {| company := "N/A"; position := "No jobs found";
             skills := "N/A"; link := url; source := url |} ]).
Proof.
  unfold scrape_data. split.
  - destruct (selected_extractor web url) as [e|[|j js]]; simpl; discriminate.
  - intros [H|[e H]]; rewrite H; reflexivity.
Qed.

Lemma scrape_data_sentinel_witness :
  found_nothing (fun _ => inl Timeout) "example.com/jobs"
  /\ scrape_data (fun _ => inl Timeout) "example.com/jobs"
     = [ sentinel "example.com/jobs" ].
Proof.
  assert (H : found_nothing (fun _ => inl Timeout) "example.com/jobs")
    by (right; exists Timeout; reflexivity).
  split; [exact H|].
  exact (proj2 (scrape_data_sentinel (fun _ => inl Timeout) "example.com/jobs") H).
Defined.

(** ** The selector chain of the generic extractor *)

(** C2. The generic extractor goes through [job_selectors] in the listed
    order and returns exactly the records of the first selector that
    yields at least one record; nothing of a later selector is added.
    Selectors before it, whether they matched no element or only
    elements without a title, are passed over; when no selector yields a
    record the result is empty. *)
Theorem generic_first_productive_selector (url : string) (soup : PageElement) :
  (forall pre selector post,
      Generic.job_selectors = pre ++ selector :: post ->
      Forall (fun s => selector_records url soup s = []) pre ->
      selector_records url soup selector <> [] ->
      Generic.extract url soup = selector_records url soup selector)
  /\ (Forall (fun s => selector_records url soup s = []) Generic.job_selectors ->
      Generic.extract url soup = []).
Proof.
  unfold Generic.extract. rewrite try_selectors_find. split.
  - intros pre selector post Hsplit Hpre Hsel.
    rewrite (find_first_split (productive url soup) _ pre post selector Hsplit).
    + reflexivity.
    + eapply Forall_impl; [|exact Hpre]. intros s Hs. now apply productive_false.
    + now apply productive_true.
  - intros Hall. rewrite find_none_all; [reflexivity|].
    eapply Forall_impl; [|exact Hall]. intros s Hs. now apply productive_false.
Qed.

Lemma generic_first_productive_selector_witness :
  Css.select [Css.tag_class "div" "job"] Pages.generic_page = [Pages.untitled]
  /\ Generic.extract "u" Pages.generic_page = [Pages.job_card "u"].
Proof.
  split; [reflexivity|].
  rewrite (proj1 (generic_first_productive_selector "u" Pages.generic_page)
             (firstn 4 Generic.job_selectors)
             [Css.tag_attr "div" (AttrContains "class" "job")]
             (skipn 5 Generic.job_selectors)).
  - reflexivity.
  - reflexivity.
  - repeat constructor.
  - vm_compute. discriminate.
Defined.

(** ** The caps *)

(** C3. The RemoteOK extractor returns at most 30 records, however many
    rows the document has.  For every selector it tries, the generic
    extractor works on [job_elements], which are the first matches of
    the selector and at most 20; every record it returns comes from one
    of them, so it returns at most 20 records. *)
Theorem extraction_caps (url : string) (soup : PageElement) :
  List.length (RemoteOK.extract soup) <= 30
  /\ (forall selector,
        List.length (Generic.job_elements selector soup) <= 20
        /\ exists rest,
             Css.select selector soup
             = Generic.job_elements selector soup ++ rest)
  /\ (forall j, In j (Generic.extract url soup) ->
        exists selector e,
          In selector Generic.job_selectors
          /\ In e (Generic.job_elements selector soup)
          /\ Generic.element url e = Some j)
  /\ List.length (Generic.extract url soup) <= 20.
Proof.
  split; [|split; [|split]].
  - rewrite remoteok_extract_emitted.
    etransitivity; [apply emitted_length | apply firstn_length_le].
  - intros selector. split; [apply firstn_length_le|].
    exists (skipn 20 (Css.select selector soup)).
    unfold Generic.job_elements. now rewrite firstn_skipn.
  - intros j Hj. destruct (generic_extract_in url soup j Hj)
      as (selector & e & Hs & He & Hb & _).
    exists selector, e. auto.
  - unfold Generic.extract. rewrite try_selectors_find.
    destruct (find (productive url soup) Generic.job_selectors); simpl; [|lia].
    etransitivity; [apply emitted_length | apply firstn_length_le].
Qed.

Lemma extraction_caps_witness :
  In (Pages.job_card "u") (Generic.extract "u" Pages.generic_page)
  /\ exists selector e,
       In selector Generic.job_selectors
       /\ In e (Generic.job_elements selector Pages.generic_page)
       /\ Generic.element "u" e = Some (Pages.job_card "u").
Proof.
  assert (H : In (Pages.job_card "u") (Generic.extract "u" Pages.generic_page))
    by (left; reflexivity).
  split; [exact H|].
  exact (proj1 (proj2 (proj2 (extraction_caps "u" Pages.generic_page))) _ H).
Defined.

(** ** Featured rows *)

Lemma remoteok_row_some (job : PageElement) (j : Job) :
  RemoteOK.row job = Some j ->
  RemoteOK.is_featured job = false
  /\ exists company_elem position_elem,
       Css.select_one [Css.tag "h3"] job = Some company_elem
       /\ Css.select_one [Css.tag "h2"] job = Some position_elem
       /\ company j = PyStr.strip (Soup.text company_elem)
       /\ position j = PyStr.strip (Soup.text position_elem)
       /\ link j = RemoteOK.job_link job
       /\ source j = "RemoteOK"%string.
Proof.
  unfold RemoteOK.row.
  destruct (RemoteOK.is_featured job); [discriminate|].
  destruct (Css.select_one [Css.tag "h3"] job) as [c|]; [|discriminate].
  destruct (Css.select_one [Css.tag "h2"] job) as [p|]; [|discriminate].
  intros [= <-]. split; [reflexivity|]. exists c, p. simpl. auto 10.
Qed.

Lemma remoteok_extract_in (soup : PageElement) (j : Job) :
  In j (RemoteOK.extract soup) <->
  exists job, In job (firstn 30 (RemoteOK.job_rows soup))
              /\ RemoteOK.row job = Some j.
Proof. rewrite remoteok_extract_emitted. apply emitted_in. Qed.

(** C4, as the code has it.  A featured row never yields a record,
    whatever company and position it carries.  The cap comes first: the
    extractor takes the first 30 rows, featured ones included, and emits
    the records of those among them that are not featured. *)
Theorem featured_rows_emit_nothing (soup : PageElement) :
  (forall job, RemoteOK.is_featured job = true -> RemoteOK.row job = None)
  /\ RemoteOK.extract soup
     = emitted RemoteOK.row
         (filter (fun job => negb (RemoteOK.is_featured job))
                 (firstn 30 (RemoteOK.job_rows soup))).
Proof.
  assert (Hskip : forall job,
             RemoteOK.is_featured job = true -> RemoteOK.row job = None).
  { intros job H. unfold RemoteOK.row. now rewrite H. }
  split; [exact Hskip|].
  rewrite remoteok_extract_emitted. symmetry. apply emitted_filter.
  intros job H. apply Hskip. now apply negb_false_iff.
Qed.

Lemma featured_rows_emit_nothing_witness :
  RemoteOK.is_featured Pages.row_featured = true
  /\ Css.select_one [Css.tag "h3"] Pages.row_featured
     = Some (Pages.leaf "h3" "Sponsor")
  /\ Css.select_one [Css.tag "h2"] Pages.row_featured
     = Some (Pages.leaf "h2" "Promoted role")
  /\ RemoteOK.row Pages.row_featured = None.
Proof.
  split; [reflexivity|]. split; [reflexivity|]. split; [reflexivity|].
  exact (proj1 (featured_rows_emit_nothing Pages.featured_page)
           Pages.row_featured eq_refl).
Defined.

(** C4 as stated fails: on a page with thirty featured rows followed by
    an ordinary row, the featured rows fill the thirty slots and the
    ordinary row is never looked at, where the reading of the
    specification would return its record. *)
Lemma featured_rows_take_slots :
  RemoteOK.extract Pages.featured_page = []
  /\ Spec.remoteok_featured_free Pages.featured_page = [Pages.job_a]
  /\ RemoteOK.extract Pages.featured_page
     <> Spec.remoteok_featured_free Pages.featured_page.
Proof.
  assert (H1 : RemoteOK.extract Pages.featured_page = [])
    by (vm_compute; reflexivity).
  assert (H2 : Spec.remoteok_featured_free Pages.featured_page = [Pages.job_a])
    by (vm_compute; reflexivity).
  split; [exact H1|]. split; [exact H2|].
  rewrite H1, H2. discriminate.
Qed.

(** ** The position field *)

Lemma generic_element_some (url : string) (job_elem : PageElement) (j : Job) :
  Generic.element url job_elem = Some j ->
  exists title,
    Css.select_one Generic.title_selector job_elem = Some title
    /\ position j = PyStr.strip (Soup.text title)
    /\ company j = match Css.select_one Generic.company_selector job_elem with
                   | Some c => PyStr.strip (Soup.text c)
                   | None => "N/A"%string
                   end
    /\ link j = match Css.select_one Generic.link_selector job_elem with
                | Some l => Soup.get l "href" ""
                | None => ""%string
                end
    /\ skills j = "N/A"%string
    /\ source j = url.
Proof.
  unfold Generic.element.
  destruct (Css.select_one Generic.title_selector job_elem) as [t|];
    [|discriminate].
  intros [= <-]. exists t. simpl. auto 10.
Qed.

(** C5, as the code has it.  Every record an extractor emits comes from
    a row or element in which a position element was found (an [h2] for
    RemoteOK, a title candidate for the generic extractor), and its
    position is the stripped text of that element; a row or element in
    which none is found yields no record.  The text itself may be
    empty. *)
Theorem position_from_title_element (url : string) (soup : PageElement) :
  (forall j, In j (RemoteOK.extract soup) ->
     exists job position_elem,
       In job (firstn 30 (RemoteOK.job_rows soup))
       /\ Css.select_one [Css.tag "h2"] job = Some position_elem
       /\ position j = PyStr.strip (Soup.text position_elem))
  /\ (forall job, Css.select_one [Css.tag "h2"] job = None ->
        RemoteOK.row job = None)
  /\ (forall j, In j (Generic.extract url soup) ->
        exists selector job_elem title,
          In selector Generic.job_selectors
          /\ In job_elem (Generic.job_elements selector soup)
          /\ Css.select_one Generic.title_selector job_elem = Some title
          /\ position j = PyStr.strip (Soup.text title))
  /\ (forall job_elem,
        Css.select_one Generic.title_selector job_elem = None ->
        Generic.element url job_elem = None).
Proof.
  split; [|split; [|split]].
  - intros j Hj. apply remoteok_extract_in in Hj. destruct Hj as (job & Hin & Hrow).
    apply remoteok_row_some in Hrow.
    destruct Hrow as (_ & c & p & _ & Hp & _ & Hpos & _).
    exists job, p. auto.
  - intros job H. unfold RemoteOK.row. rewrite H.
    destruct (RemoteOK.is_featured job); [reflexivity|].
    now destruct (Css.select_one [Css.tag "h3"] job).
  - intros j Hj. apply generic_extract_in in Hj.
    destruct Hj as (selector & e & Hs & He & Hb & _).
    apply generic_element_some in Hb. destruct Hb as (t & Ht & Hpos & _).
    exists selector, e, t. auto.
  - intros job_elem H. unfold Generic.element. now rewrite H.
Qed.

Lemma position_from_title_element_witness :
  Css.select_one [Css.tag "h2"] Pages.untitled = None
  /\ RemoteOK.row Pages.untitled = None
  /\ Css.select_one Generic.title_selector Pages.untitled = None
  /\ Generic.element "u" Pages.untitled = None.
Proof.
  pose proof (position_from_title_element "u" Pages.generic_page)
    as (_ & Hr & _ & Hg).
  split; [reflexivity|]. split; [exact (Hr Pages.untitled eq_refl)|].
  split; [reflexivity|]. exact (Hg Pages.untitled eq_refl).
Defined.

(** C5 as stated fails: a row whose [h2] has no text yields a record
    with an empty position. *)
Lemma empty_position_emitted :
  exists j, In j (RemoteOK.extract Pages.blank_page)
            /\ position j = ""%string.
Proof.
  exists {| company := "Acme"; position := ""; skills := ""; link := "";
            source := "RemoteOK" |}.
  split; [left|]; reflexivity.
Qed.

(** ** The title of a generic listing *)

Lemma matches_title_selector (e : PageElement) :
  Css.matches Generic.title_selector e = is_title_candidate e.
Proof.
  unfold Css.matches, Generic.title_selector, Css.match_compound,
    Css.match_tag, Css.has_class, Css.match_attr, Soup.attribute_value,
    Css.tag, Css.class, Css.attr, is_title_candidate.
  destruct e as [txt|name [tokens|] attrs contents];
    cbn [existsb forallb c_tag c_classes c_attrs Soup.tag_name
         Soup.get_class option_map PyStr.truthy andb orb];
    rewrite ?String.eqb_refl, ?andb_true_r, ?orb_false_r, ?orb_assoc;
    reflexivity.
Qed.

Lemma hd_error_filter_first {A : Type} (p : A -> bool)
    (pre post : list A) (x : A) :
  Forall (fun y => p y = false) pre ->
  p x = true ->
  hd_error (filter p (pre ++ x :: post)) = Some x.
Proof.
  intros Hpre Hx. induction Hpre as [|y pre Hy _ IH]; simpl.
  - now rewrite Hx.
  - now rewrite Hy.
Qed.

(** C6, as the code has it.  The title of a matched element is its first
    descendant, in document order, that is an [h2], an [h3], or a tag
    whose class has the token [title] or contains [title]; the stripped
    text of that descendant is the record's position.  A heading gives
    the position when no class-[title] element comes before it. *)
Theorem title_is_first_candidate (url : string)
    (job_elem title : PageElement) (pre post : list PageElement) :
  Soup.descendants job_elem = pre ++ title :: post ->
  Forall (fun d => is_title_candidate d = false) pre ->
  is_title_candidate title = true ->
  Css.select_one Generic.title_selector job_elem = Some title
  /\ exists j, Generic.element url job_elem = Some j
               /\ position j = PyStr.strip (Soup.text title).
Proof.
  intros Hsplit Hpre Htitle.
  assert (Hone : Css.select_one Generic.title_selector job_elem = Some title).
  { unfold Css.select_one, Css.select. rewrite Hsplit.
    apply hd_error_filter_first.
    - eapply Forall_impl; [|exact Hpre].
      intros d Hd. now rewrite matches_title_selector.
    - now rewrite matches_title_selector. }
  split; [exact Hone|].
  unfold Generic.element. rewrite Hone. eexists. split; reflexivity.
Qed.

Lemma title_is_first_candidate_witness :
  Css.select_one Generic.title_selector Pages.card
  = Some (Pages.leaf_class "span" "title" "Lead")
  /\ exists j, Generic.element "u" Pages.card = Some j
               /\ position j
                  = PyStr.strip (Soup.text (Pages.leaf_class "span" "title" "Lead")).
Proof.
  apply (title_is_first_candidate "u" Pages.card
           (Pages.leaf_class "span" "title" "Lead") []
           [ NavigableString "Lead"; Pages.leaf "h2" "Heading";
             NavigableString "Heading"; Tag "a" None [("href", "/x")] [] ]).
  - reflexivity.
  - constructor.
  - reflexivity.
Defined.

(** C6 as stated fails: an element with a class-[title] child before its
    [h2] has both a heading and a class-[title] sub-element, and its
    record takes the position from the class-[title] child, not from the
    heading the order of preference would pick. *)
Lemma heading_not_preferred :
  Spec.title_by_preference Pages.card = Some (Pages.leaf "h2" "Heading")
  /\ Css.select_one [Css.class "title"] Pages.card
     = Some (Pages.leaf_class "span" "title" "Lead")
  /\ option_map position (Generic.element "u" Pages.card) = Some "Lead"%string
  /\ option_map position (Generic.element "u" Pages.card)
     <> option_map (fun t => PyStr.strip (Soup.text t))
                   (Spec.title_by_preference Pages.card).
Proof.
  split; [reflexivity|]. split; [reflexivity|]. split; [reflexivity|].
  vm_compute. discriminate.
Qed.

(** ** Links of RemoteOK records *)

Lemma job_link_cases (job : PageElement) :
  let raw := Soup.get job "data-url" "" in
  (raw <> ""%string -> PyStr.startswith raw "http" = false ->
   RemoteOK.job_link job = ("https://remoteok.com" ++ raw)%string)
  /\ (PyStr.startswith raw "http" = true -> RemoteOK.job_link job = raw)
  /\ (raw = ""%string -> RemoteOK.job_link job = ""%string).
Proof.
  unfold RemoteOK.job_link. cbv zeta.
  destruct (Soup.get job "data-url" "") as [|c raw] eqn:E.
  - split; [|split]; intros; try reflexivity. congruence.
  - cbn [PyStr.truthy andb]. split; [|split].
    + intros _ H. now rewrite H.
    + intros H. now rewrite H.
    + discriminate.
Qed.

(** C7, as the code has it.  For every record the RemoteOK extractor
    emits, with [raw] the [data-url] attribute of its row (the empty
    string when absent): a non-empty [raw] that does not start with the
    four characters [http] is prefixed with [https://remoteok.com]; a
    [raw] that starts with [http] is the link unchanged; an empty [raw]
    gives an empty link. *)
Theorem remoteok_link_normalised (soup : PageElement) (j : Job) :
  In j (RemoteOK.extract soup) ->
  exists job,
    In job (firstn 30 (RemoteOK.job_rows soup))
    /\ RemoteOK.row job = Some j
    /\ let raw := Soup.get job "data-url" "" in
       (raw <> ""%string -> PyStr.startswith raw "http" = false ->
        link j = ("https://remoteok.com" ++ raw)%string)
       /\ (PyStr.startswith raw "http" = true -> link j = raw)
       /\ (raw = ""%string -> link j = ""%string).
Proof.
  intros Hj. apply remoteok_extract_in in Hj. destruct Hj as (job & Hin & Hrow).
  exists job. split; [exact Hin|]. split; [exact Hrow|].
  apply remoteok_row_some in Hrow.
  destruct Hrow as (_ & c & p & _ & _ & _ & _ & Hlink & _).
  rewrite Hlink. apply job_link_cases.
Qed.

Lemma remoteok_link_normalised_witness :
  RemoteOK.extract Pages.remoteok_page = [Pages.job_a; Pages.job_b]
  /\ exists job,
       In job (firstn 30 (RemoteOK.job_rows Pages.remoteok_page))
       /\ RemoteOK.row job = Some Pages.job_a
       /\ let raw := Soup.get job "data-url" "" in
          (raw <> ""%string -> PyStr.startswith raw "http" = false ->
           link Pages.job_a = ("https://remoteok.com" ++ raw)%string)
          /\ (PyStr.startswith raw "http" = true -> link Pages.job_a = raw)
          /\ (raw = ""%string -> link Pages.job_a = ""%string).
Proof.
  split; [reflexivity|].
  apply (remoteok_link_normalised Pages.remoteok_page Pages.job_a).
  left. reflexivity.
Defined.

(** C7 as stated fails: a link that starts with the scheme [ftp] is
    absolute, yet the record's link is the base URL followed by it. *)
Lemma absolute_link_prefixed :
  Spec.has_scheme (Soup.get Pages.row_ftp "data-url" "") = true
  /\ option_map link (RemoteOK.row Pages.row_ftp)
     = Some "https://remoteok.comftp://example.com/job/1"%string
  /\ option_map link (RemoteOK.row Pages.row_ftp)
     <> Some (Soup.get Pages.row_ftp "data-url" "").
Proof.
  split; [reflexivity|]. split; [reflexivity|]. vm_compute. discriminate.
Qed.

(** ** Defaults of generic records *)

Lemma scrape_generic_jobs_ok (web : Web) (url : string) (jobs : list Job) :
  Generic.scrape_generic_jobs web url = inr jobs ->
  exists soup, fetch_soup web url = inr soup
               /\ jobs = Generic.extract url soup.
Proof.
  unfold Generic.scrape_generic_jobs, bind, ret.
  destruct (fetch_soup web url) as [e|soup]; [discriminate|].
  intros [= <-]. exists soup. split; reflexivity.
Qed.

(** C8. Every record the generic extractor returns has skills "N/A" and
    the requested URL as its source.  It comes from one of the matched
    elements; when that element has no company sub-element the company
    is "N/A", and when it has no anchor with an [href] the link is the
    empty string. *)
Theorem generic_record_defaults (web : Web) (url : string)
    (jobs : list Job) (j : Job) :
  Generic.scrape_generic_jobs web url = inr jobs ->
  In j jobs ->
  skills j = "N/A"%string
  /\ source j = url
  /\ exists soup selector job_elem,
       fetch_soup web url = inr soup
       /\ In selector Generic.job_selectors
       /\ In job_elem (Generic.job_elements selector soup)
       /\ Generic.element url job_elem = Some j
       /\ (Css.select_one Generic.company_selector job_elem = None ->
           company j = "N/A"%string)
       /\ (Css.select_one Generic.link_selector job_elem = None ->
           link j = ""%string).
Proof.
  intros Hrun Hj. apply scrape_generic_jobs_ok in Hrun.
  destruct Hrun as (soup & Hfetch & ->).
  apply generic_extract_in in Hj.
  destruct Hj as (selector & e & Hs & He & Hb & _).
  destruct (generic_element_some url e j Hb)
    as (t & _ & _ & Hcompany & Hlink & Hskills & Hsource).
  split; [exact Hskills|]. split; [exact Hsource|].
  exists soup, selector, e. repeat (split; [assumption|]). split.
  - intros H. now rewrite Hcompany, H.
  - intros H. now rewrite Hlink, H.
Qed.

Lemma generic_record_defaults_witness :
  Generic.scrape_generic_jobs (Pages.serve Pages.listing_page) "jobs.example"
  = inr [Pages.job_bare "jobs.example"]
  /\ Css.select_one Generic.company_selector Pages.bare = None
  /\ Css.select_one Generic.link_selector Pages.bare = None
  /\ skills (Pages.job_bare "jobs.example") = "N/A"%string
  /\ source (Pages.job_bare "jobs.example") = "jobs.example"%string.
Proof.
  split; [reflexivity|]. split; [reflexivity|]. split; [reflexivity|].
  destruct (generic_record_defaults (Pages.serve Pages.listing_page)
              "jobs.example" [Pages.job_bare "jobs.example"]
              (Pages.job_bare "jobs.example") eq_refl (or_introl eq_refl))
    as (Hskills & Hsource & _).
  split; [exact Hskills | exact Hsource].
Defined.

(** ** The URL argument *)

Lemma prefix_split (p s : string) :
  String.prefix p s = true -> exists rest, s = (p ++ rest)%string.
Proof.
  revert s. induction p as [|a p IH]; intros s H.
  - exists s. reflexivity.
  - destruct s as [|b s]; simpl in H; [discriminate|].
    destruct (ascii_dec a b) as [<-|]; [|discriminate].
    destruct (IH s H) as [rest ->]. exists rest. reflexivity.
Qed.

Lemma http_url_has_scheme (s : string) :
  PyStr.startswith s "http://" = true \/ PyStr.startswith s "https://" = true ->
  Spec.has_scheme s = true.
Proof.
  unfold PyStr.startswith.
  intros [H|H]; apply prefix_split in H; destruct H as [rest ->]; reflexivity.
Qed.

(** C9, as the code has it.  A URL argument that starts with neither
    [http://] nor [https://] gets [https://] put in front of it before
    scraping, which covers every argument without a scheme; an argument
    that starts with [http://] or [https://] is passed through
    unchanged. *)
Theorem main_url_prefix (web : Web) (arg : string) :
  main web (Some arg) = scrape_data web (main_url arg)
  /\ (PyStr.startswith arg "http://" = false ->
      PyStr.startswith arg "https://" = false ->
      main_url arg = ("https://" ++ arg)%string)
  /\ (Spec.has_scheme arg = false -> main_url arg = ("https://" ++ arg)%string)
  /\ (PyStr.startswith arg "http://" = true
      \/ PyStr.startswith arg "https://" = true ->
      main_url arg = arg).
Proof.
  split; [reflexivity|].
  assert (Hno : PyStr.startswith arg "http://" = false ->
                PyStr.startswith arg "https://" = false ->
                main_url arg = ("https://" ++ arg)%string).
  { intros H1 H2. unfold main_url. now rewrite H1, H2. }
  split; [exact Hno|]. split.
  - intros Hs. apply Hno.
    + destruct (PyStr.startswith arg "http://") eqn:E; [|reflexivity].
      rewrite http_url_has_scheme in Hs; [discriminate | now left].
    + destruct (PyStr.startswith arg "https://") eqn:E; [|reflexivity].
      rewrite http_url_has_scheme in Hs; [discriminate | now right].
  - unfold main_url. intros [H|H]; rewrite H; [|rewrite orb_true_r]; reflexivity.
Qed.

Lemma main_url_prefix_witness :
  Spec.has_scheme "example.com/jobs" = false
  /\ main_url "example.com/jobs" = "https://example.com/jobs"%string
  /\ PyStr.startswith "http://example.com" "http://" = true
  /\ main_url "http://example.com" = "http://example.com"%string.
Proof.
  pose proof (main_url_prefix (fun _ => inl Timeout) "example.com/jobs")
    as (_ & _ & Hnone & _).
  pose proof (main_url_prefix (fun _ => inl Timeout) "http://example.com")
    as (_ & _ & _ & Hhttp).
  split; [reflexivity|]. split; [exact (Hnone eq_refl)|].
  split; [reflexivity|]. exact (Hhttp (or_introl eq_refl)).
Defined.

(** C9 as stated fails: [ftp://example.com/jobs] already has a scheme and
    is not passed through unchanged. *)
Lemma other_scheme_prefixed :
  Spec.has_scheme "ftp://example.com/jobs" = true
  /\ main_url "ftp://example.com/jobs" = "https://ftp://example.com/jobs"%string
  /\ main_url "ftp://example.com/jobs" <> "ftp://example.com/jobs"%string.
Proof.
  split; [reflexivity|]. split; [reflexivity|]. vm_compute. discriminate.
Qed.

(** ** The featured test *)

Lemma existsb_eqb_in (x : string) (l : list string) :
  existsb (String.eqb x) l = true <-> In x l.
Proof.
  rewrite existsb_exists. split.
  - intros (y & Hy & E). apply String.eqb_eq in E. now subst.
  - intros H. exists x. split; [exact H | apply String.eqb_refl].
Qed.

(** C10. A row counts as featured exactly when its class attribute is
    present and one of its tokens is the string [featured].  A row
    without a class attribute is not featured; neither is a row whose
    tokens merely contain [featured], such as [featured-top], and such a
    row yields its record whenever it has a company and a position
    element. *)
Theorem featured_exact_token (name : string) (cls : option (list string))
    (attrs : list (string * string)) (contents : list PageElement) :
  (RemoteOK.is_featured (Tag name cls attrs contents) = true
   <-> exists tokens, cls = Some tokens /\ In "featured"%string tokens)
  /\ RemoteOK.is_featured (Tag name None attrs contents) = false
  /\ RemoteOK.is_featured
       (Tag name (Some ["job"; "featured-top"]%string) attrs contents) = false
  /\ (forall tokens company_elem position_elem,
        cls = Some tokens ->
        ~ In "featured"%string tokens ->
        Css.select_one [Css.tag "h3"] (Tag name cls attrs contents)
        = Some company_elem ->
        Css.select_one [Css.tag "h2"] (Tag name cls attrs contents)
        = Some position_elem ->
        exists j, RemoteOK.row (Tag name cls attrs contents) = Some j
                  /\ company j = PyStr.strip (Soup.text company_elem)
                  /\ position j = PyStr.strip (Soup.text position_elem)).
Proof.
  split; [|split; [|split]].
  - unfold RemoteOK.is_featured. destruct cls as [tokens|]; cbn [Soup.get_class].
    + rewrite existsb_eqb_in. split.
      * intros H. exists tokens. auto.
      * intros (t & [= <-] & H). exact H.
    + split; [discriminate|]. intros (t & H & _). discriminate.
  - reflexivity.
  - reflexivity.
  - intros tokens c p -> Hnot Hc Hp. unfold RemoteOK.row.
    assert (F : RemoteOK.is_featured (Tag name (Some tokens) attrs contents)
                = false).
    { unfold RemoteOK.is_featured. cbn [Soup.get_class].
      destruct (existsb (String.eqb "featured") tokens) eqn:E; [|reflexivity].
      apply existsb_eqb_in in E. contradiction. }
    rewrite F, Hc, Hp. eexists. split; [reflexivity|]. split; reflexivity.
Qed.

Lemma featured_exact_token_witness :
  ~ In "featured"%string ["job"; "featured-top"]%string
  /\ PyStr.contains "featured" "featured-top" = true
  /\ exists j, RemoteOK.row Pages.row_featured_top = Some j
               /\ company j = PyStr.strip (Soup.text (Pages.leaf "h3" "Company B"))
               /\ position j = PyStr.strip (Soup.text (Pages.leaf "h2" "Developer")).
Proof.
  assert (Hnot : ~ In "featured"%string ["job"; "featured-top"]%string).
  { intros [H|[H|[]]]; discriminate H. }
  split; [exact Hnot|]. split; [reflexivity|].
  refine (proj2 (proj2 (proj2
            (featured_exact_token "tr" (Some ["job"; "featured-top"]%string)
               [("data-url", "https://jobs.example/9")]%string
               [ Pages.leaf "h3" "Company B"; Pages.leaf "h2" "Developer" ])))
          _ _ _ eq_refl Hnot eq_refl eq_refl).
Defined.

(** * Further properties of the program *)

(** ** [strip] *)

Lemma lstrip_no_leading_space (s : string) :
  leading_space (PyStr.lstrip s) = false.
Proof.
  induction s as [|c s IH]; simpl; [reflexivity|].
  destruct (PyStr.isspace c) eqn:E; [exact IH|]. simpl. exact E.
Qed.

Lemma lstrip_of_chars (l : list ascii) :
  PyStr.lstrip (string_of_list_ascii l) = string_of_list_ascii (lstrip_chars l).
Proof.
  induction l as [|c l IH]; simpl; [reflexivity|].
  destruct (PyStr.isspace c); [exact IH | reflexivity].
Qed.

Lemma reverse_of_chars (l : list ascii) :
  PyStr.reverse (string_of_list_ascii l) = string_of_list_ascii (rev l).
Proof.
  unfold PyStr.reverse. now rewrite list_ascii_of_string_of_list_ascii.
Qed.

Lemma reverse_involutive (s : string) : PyStr.reverse (PyStr.reverse s) = s.
Proof.
  unfold PyStr.reverse.
  now rewrite list_ascii_of_string_of_list_ascii, rev_involutive,
    string_of_list_ascii_of_string.
Qed.

Lemma hd_error_app_nonempty {A : Type} (l : list A) (a : A) :
  l <> [] -> hd_error (l ++ [a]) = hd_error l.
Proof. destruct l; [congruence | reflexivity]. Qed.

Lemma lstrip_chars_suffix (l : list ascii) :
  lstrip_chars l = [] \/ (lstrip_chars l <> []
                          /\ hd_error (rev (lstrip_chars l)) = hd_error (rev l)).
Proof.
  induction l as [|c l IH]; simpl; [now left|].
  destruct (PyStr.isspace c).
  - destruct IH as [IH|[Hne IH]]; [now left|]. right. split; [exact Hne|].
    rewrite IH. symmetry. apply hd_error_app_nonempty.
    destruct l; [simpl in Hne; congruence|].
    simpl. intros H. apply app_eq_nil in H. destruct H; discriminate.
  - right. split; [discriminate | reflexivity].
Qed.

Lemma leading_space_of_chars (l : list ascii) :
  leading_space (string_of_list_ascii l)
  = match hd_error l with
    | Some c => PyStr.isspace c
    | None => false
    end.
Proof. destruct l; reflexivity. Qed.

Lemma rstrip_keeps_head (s : string) :
  leading_space s = false -> leading_space (PyStr.rstrip s) = false.
Proof.
  intros H. unfold PyStr.rstrip.
  rewrite <- (string_of_list_ascii_of_string s) in H |- *.
  set (l := list_ascii_of_string s) in *.
  rewrite reverse_of_chars, lstrip_of_chars, reverse_of_chars.
  rewrite leading_space_of_chars in H |- *.
  destruct (lstrip_chars_suffix (rev l)) as [E|[_ E]].
  - rewrite E. reflexivity.
  - rewrite E, rev_involutive. exact H.
Qed.

Lemma strip_trimmed (s : string) : trimmed (PyStr.strip s) = true.
Proof.
  unfold trimmed, PyStr.strip. apply andb_true_intro. split; apply negb_true_iff.
  - apply rstrip_keeps_head, lstrip_no_leading_space.
  - unfold trailing_space, PyStr.rstrip. rewrite reverse_involutive.
    apply lstrip_no_leading_space.
Qed.

Lemma lstrip_fixed (s : string) :
  leading_space s = false -> PyStr.lstrip s = s.
Proof. destruct s as [|c s]; simpl; [reflexivity|]. now intros ->. Qed.

Lemma strip_fixed (s : string) : trimmed s = true -> PyStr.strip s = s.
Proof.
  unfold trimmed, trailing_space. intros H. apply andb_prop in H.
  destruct H as [H1 H2]. apply negb_true_iff in H1, H2.
  unfold PyStr.strip, PyStr.rstrip.
  rewrite (lstrip_fixed s H1), (lstrip_fixed _ H2). apply reverse_involutive.
Qed.

(** ** Requests *)

Lemma raise_for_status_cases (r : Response) :
  (400 <= status_code r < 600
   /\ raise_for_status r = inl (HTTPError (status_code r)))
  \/ (~ 400 <= status_code r < 600 /\ raise_for_status r = inr tt).
Proof.
  unfold raise_for_status, raise, ret.
  destruct (400 <=? status_code r)%nat eqn:A;
    destruct (status_code r <? 600)%nat eqn:B;
    cbn [andb];
    apply Nat.leb_le in A || apply Nat.leb_gt in A;
    apply Nat.ltb_lt in B || apply Nat.ltb_ge in B;
    [left | right | right | right]; split; (lia || reflexivity).
Qed.

Lemma fetch_soup_raises (web : Web) (url : string) (e : Exception) :
  fetch_soup web url = inl e <-> request_fails web url e.
Proof.
  unfold fetch_soup, request_fails, bind, ret.
  destruct (web url) as [e'|r].
  - split.
    + intros [= ->]. now left.
    + intros [[= ->]|(r & H & _)]; [reflexivity | discriminate].
  - destruct (raise_for_status_cases r) as [[Hs ->]|[Hs ->]]; split.
    + intros [= <-]. right. exists r. auto.
    + intros [H|(r' & [= <-] & _ & ->)]; [discriminate | reflexivity].
    + discriminate.
    + intros [H|(r' & [= <-] & Hs' & _)]; [discriminate | contradiction].
Qed.




(** ** [scrape_data] on the result of the request *)

Lemma scrape_data_failed (web : Web) (url : string) (e : Exception) :
  fetch_soup web url = inl e -> scrape_data web url = [sentinel url].
Proof.
  intros H. unfold scrape_data, selected_extractor,
    RemoteOK.scrape_remoteok, Generic.scrape_generic_jobs, bind.
  rewrite H. now destruct (PyStr.contains "remoteok.com" url).
Qed.

Lemma scrape_data_fetched (web : Web) (url : string) (soup : PageElement) :
  fetch_soup web url = inr soup ->
  scrape_data web url
  = match (if PyStr.contains "remoteok.com" url
           then RemoteOK.extract soup
           else Generic.extract url soup) with
    | [] => [sentinel url]
    | j :: js => j :: js
    end.
Proof.
  intros H. unfold scrape_data, selected_extractor,
    RemoteOK.scrape_remoteok, Generic.scrape_generic_jobs, bind, ret.
  rewrite H. destruct (PyStr.contains "remoteok.com" url);
    [destruct (RemoteOK.extract soup) | destruct (Generic.extract url soup)];
    reflexivity.
Qed.

Lemma scrape_data_rows (web : Web) (url : string) (j : Job) :
  In j (scrape_data web url) ->
  j = sentinel url
  \/ exists soup,
       fetch_soup web url = inr soup
       /\ ((PyStr.contains "remoteok.com" url = true
            /\ In j (RemoteOK.extract soup))
           \/ (PyStr.contains "remoteok.com" url = false
               /\ In j (Generic.extract url soup))).
Proof.
  destruct (fetch_soup web url) as [e|soup] eqn:F.
  - rewrite (scrape_data_failed web url e F). intros [<-|[]]. now left.
  - rewrite (scrape_data_fetched web url soup F).
    destruct (PyStr.contains "remoteok.com" url).
    + destruct (RemoteOK.extract soup) as [|j0 js] eqn:E.
      * intros [<-|[]]. now left.
      * intros H. right. exists soup. split; [reflexivity|]. left.
        split; [reflexivity|]. rewrite E. exact H.
    + destruct (Generic.extract url soup) as [|j0 js] eqn:E.
      * intros [<-|[]]. now left.
      * intros H. right. exists soup. split; [reflexivity|]. right.
        split; [reflexivity|]. rewrite E. exact H.
Qed.

(** X2. A request that fails, because [requests.get] raises or because
    the status is 4xx or 5xx, never stops the program: [scrape_data]
    returns the single sentinel row, whatever the response body holds. *)
Theorem failed_request_gives_sentinel (web : Web) (url : string) (e : Exception) :
  request_fails web url e ->
  scrape_data web url = [sentinel url].
Proof.
  intros H. apply fetch_soup_raises in H. exact (scrape_data_failed web url e H).
Qed.

Lemma failed_request_gives_sentinel_witness :
  request_fails Sites.not_found Sites.remoteok_url (HTTPError 404)
  /\ RemoteOK.extract Pages.remoteok_page = [Pages.job_a; Pages.job_b]
  /\ scrape_data Sites.not_found Sites.remoteok_url
     = [sentinel Sites.remoteok_url].
Proof.
  assert (H : request_fails Sites.not_found Sites.remoteok_url (HTTPError 404)).
  { right. exists (mkResponse 404 Pages.remoteok_page).
    split; [reflexivity|]. split; [simpl; lia | reflexivity]. }
  split; [exact H|]. split; [reflexivity|].
  exact (failed_request_gives_sentinel Sites.not_found Sites.remoteok_url _ H).
Defined.

Lemma remoteok_extract_length (soup : PageElement) :
  List.length (RemoteOK.extract soup) <= 30.
Proof.
  rewrite remoteok_extract_emitted.
  etransitivity; [apply emitted_length | apply firstn_length_le].
Qed.

Lemma generic_extract_length (url : string) (soup : PageElement) :
  List.length (Generic.extract url soup) <= 20.
Proof.
  unfold Generic.extract. rewrite try_selectors_find.
  destruct (find (productive url soup) Generic.job_selectors); simpl; [|lia].
  etransitivity; [apply emitted_length | apply firstn_length_le].
Qed.

Lemma generic_extract_nil (url : string) (soup : PageElement) :
  (forall selector, In selector Generic.job_selectors ->
                    Css.select selector soup = []) ->
  Generic.extract url soup = [].
Proof.
  intros H. unfold Generic.extract. rewrite try_selectors_find.
  rewrite find_none_all; [reflexivity|].
  apply Forall_forall. intros s Hs. apply productive_false.
  unfold selector_records, Generic.job_elements. now rewrite (H s Hs).
Qed.

(** X3. The choice of extractor is final.  For a URL that contains
    [remoteok.com], a page without [tr.job] rows gives the sentinel row
    even when the generic selectors would find listings on it; for any
    other URL, a page on which no generic selector matches gives the
    sentinel row even when it has RemoteOK rows. *)
Theorem extractors_do_not_fall_back (web : Web) (url : string)
    (soup : PageElement) :
  fetch_soup web url = inr soup ->
  (PyStr.contains "remoteok.com" url = true ->
   RemoteOK.job_rows soup = [] ->
   scrape_data web url = [sentinel url])
  /\ (PyStr.contains "remoteok.com" url = false ->
      (forall selector, In selector Generic.job_selectors ->
                        Css.select selector soup = []) ->
      scrape_data web url = [sentinel url]).
Proof.
  intros F. rewrite (scrape_data_fetched web url soup F). split.
  - intros -> Hrows. unfold RemoteOK.extract. now rewrite Hrows.
  - intros -> Hnone. now rewrite generic_extract_nil.
Qed.

Lemma extractors_do_not_fall_back_witness :
  (Generic.extract Sites.remoteok_url Pages.generic_page
   = [Pages.job_card Sites.remoteok_url]
   /\ scrape_data (Pages.serve Pages.generic_page) Sites.remoteok_url
      = [sentinel Sites.remoteok_url])
  /\ (RemoteOK.extract Pages.remoteok_page = [Pages.job_a; Pages.job_b]
      /\ scrape_data (Pages.serve Pages.remoteok_page) Sites.board_url
         = [sentinel Sites.board_url]).
Proof.
  split; (split; [reflexivity|]).
  - exact (proj1 (extractors_do_not_fall_back
                    (Pages.serve Pages.generic_page) Sites.remoteok_url
                    Pages.generic_page eq_refl) eq_refl eq_refl).
  - refine (proj2 (extractors_do_not_fall_back
                     (Pages.serve Pages.remoteok_page) Sites.board_url
                     Pages.remoteok_page eq_refl) eq_refl _).
    intros selector Hs. simpl in Hs.
    repeat (destruct Hs as [<-|Hs]; [reflexivity|]). destruct Hs.
Defined.

(** X4. [scrape_data] returns between 1 and 30 rows, and at most 20 for
    a URL that does not contain [remoteok.com]. *)
Theorem scrape_data_row_count (web : Web) (url : string) :
  1 <= List.length (scrape_data web url) <= 30
  /\ (PyStr.contains "remoteok.com" url = false ->
      List.length (scrape_data web url) <= 20).
Proof.
  destruct (fetch_soup web url) as [e|soup] eqn:F.
  - rewrite (scrape_data_failed web url e F). simpl. split; lia.
  - rewrite (scrape_data_fetched web url soup F).
    pose proof (remoteok_extract_length soup) as HR.
    pose proof (generic_extract_length url soup) as HG.
    destruct (PyStr.contains "remoteok.com" url).
    + destruct (RemoteOK.extract soup); simpl in *;
        (split; [lia | discriminate]).
    + destruct (Generic.extract url soup); simpl in *;
        (split; [lia | intros _; lia]).
Qed.

Lemma scrape_data_row_count_witness :
  PyStr.contains "remoteok.com" Sites.board_url = false
  /\ List.length (scrape_data (Pages.serve Pages.generic_page) Sites.board_url)
     <= 20.
Proof.
  split; [reflexivity|].
  exact (proj2 (scrape_data_row_count (Pages.serve Pages.generic_page)
                  Sites.board_url) eq_refl).
Defined.



(** X6. In every row [scrape_data] returns, the company and the position
    neither begin nor end with white space. *)
Theorem scrape_data_fields_trimmed (web : Web) (url : string) (j : Job) :
  In j (scrape_data web url) ->
  trimmed (company j) = true /\ trimmed (position j) = true.
Proof.
  intros H. apply scrape_data_rows in H.
  destruct H as [->|(soup & _ & [[_ H]|[_ H]])].
  - split; reflexivity.
  - apply remoteok_extract_in in H. destruct H as (job & _ & Hrow).
    apply remoteok_row_some in Hrow.
    destruct Hrow as (_ & c & p & _ & _ & -> & -> & _).
    split; apply strip_trimmed.
  - apply generic_extract_in in H.
    destruct H as (selector & e & _ & _ & Hb & _).
    apply generic_element_some in Hb.
    destruct Hb as (t & _ & -> & -> & _).
    split; [|apply strip_trimmed].
    destruct (Css.select_one Generic.company_selector e);
      [apply strip_trimmed | reflexivity].
Qed.

Lemma scrape_data_fields_trimmed_witness :
  scrape_data (Pages.serve Samples.board) Sites.remoteok_url
  = [Samples.job_six; Samples.job_plain]
  /\ Soup.text (Pages.leaf "h3" "  Acme Corp  ") = "  Acme Corp  "%string
  /\ trimmed (company Samples.job_six) = true
  /\ trimmed (position Samples.job_six) = true.
Proof.
  split; [reflexivity|]. split; [reflexivity|].
  apply (scrape_data_fields_trimmed (Pages.serve Samples.board)
           Sites.remoteok_url).
  left. reflexivity.
Defined.

(** ** RemoteOK rows *)

(** X7. A row yields a record exactly when it is not featured and has
    both an [h3] and an [h2] below it: a row that lacks the company or
    the position is dropped whole. *)
Theorem remoteok_row_emits_iff (job : PageElement) :
  (exists j, RemoteOK.row job = Some j)
  <-> RemoteOK.is_featured job = false
      /\ Css.select_one [Css.tag "h3"] job <> None
      /\ Css.select_one [Css.tag "h2"] job <> None.
Proof.
  split.
  - intros (j & H). apply remoteok_row_some in H.
    destruct H as (F & c & p & Hc & Hp & _).
    rewrite Hc, Hp. repeat split; congruence.
  - intros (F & Hc & Hp). unfold RemoteOK.row. rewrite F.
    destruct (Css.select_one [Css.tag "h3"] job); [|congruence].
    destruct (Css.select_one [Css.tag "h2"] job); [|congruence].
    eexists. reflexivity.
Qed.

Lemma remoteok_row_emits_iff_witness :
  (exists j, RemoteOK.row Samples.row_plain = Some j)
  /\ Css.select_one [Css.tag "h3"] Samples.row_no_company = None
  /\ ~ (exists j, RemoteOK.row Samples.row_no_company = Some j).
Proof.
  split; [|split; [reflexivity|]].
  - apply (proj2 (remoteok_row_emits_iff Samples.row_plain)).
    split; [reflexivity|]. split; discriminate.
  - intros H. apply (proj1 (remoteok_row_emits_iff Samples.row_no_company)) in H.
    destruct H as (_ & Hc & _). apply Hc. reflexivity.
Defined.

Lemma remoteok_row_skills (job : PageElement) (j : Job) :
  RemoteOK.row job = Some j ->
  skills j = PyStr.join ", "
               (map (fun t => PyStr.strip (Soup.text t))
                    (firstn 5 (Css.select [Css.class "tag"] job))).
Proof.
  unfold RemoteOK.row.
  destruct (RemoteOK.is_featured job); [discriminate|].
  destruct (Css.select_one [Css.tag "h3"] job); [|discriminate].
  destruct (Css.select_one [Css.tag "h2"] job); [|discriminate].
  intros [= <-]. reflexivity.
Qed.

(** X8. The skills of a RemoteOK record are the stripped texts of the
    first five [.tag] elements of its row, joined by a comma and a
    space: tags after the fifth are left out, and a row without tags
    gets the empty string, not "N/A". *)
Theorem remoteok_skills (soup : PageElement) (j : Job) :
  In j (RemoteOK.extract soup) ->
  exists job first rest,
    In job (firstn 30 (RemoteOK.job_rows soup))
    /\ RemoteOK.row job = Some j
    /\ Css.select [Css.class "tag"] job = first ++ rest
    /\ List.length first <= 5
    /\ (rest <> [] -> List.length first = 5)
    /\ skills j = PyStr.join ", " (map (fun t => PyStr.strip (Soup.text t)) first)
    /\ (Css.select [Css.class "tag"] job = [] -> skills j = ""%string).
Proof.
  intros H. apply remoteok_extract_in in H. destruct H as (job & Hin & Hrow).
  set (tags := Css.select [Css.class "tag"] job).
  exists job, (firstn 5 tags), (skipn 5 tags).
  split; [exact Hin|]. split; [exact Hrow|].
  split; [symmetry; apply firstn_skipn|].
  split; [apply firstn_length_le|]. split; [|split].
  - intros Hrest. rewrite length_firstn.
    destruct (Nat.le_gt_cases 5 (List.length tags)) as [L|L]; [lia|].
    exfalso. apply Hrest. apply skipn_all2. lia.
  - exact (remoteok_row_skills job j Hrow).
  - intros Hnil. rewrite (remoteok_row_skills job j Hrow).
    unfold tags in Hnil. now rewrite Hnil.
Qed.

Lemma remoteok_skills_witness :
  RemoteOK.extract Samples.board = [Samples.job_six; Samples.job_plain]
  /\ List.length (Css.select [Css.class "tag"] Samples.row_six) = 6
  /\ exists job first rest,
       In job (firstn 30 (RemoteOK.job_rows Samples.board))
       /\ RemoteOK.row job = Some Samples.job_plain
       /\ Css.select [Css.class "tag"] job = first ++ rest
       /\ List.length first <= 5
       /\ (rest <> [] -> List.length first = 5)
       /\ skills Samples.job_plain
          = PyStr.join ", " (map (fun t => PyStr.strip (Soup.text t)) first)
       /\ (Css.select [Css.class "tag"] job = [] ->
           skills Samples.job_plain = ""%string).
Proof.
  split; [reflexivity|]. split; [reflexivity|].
  apply (remoteok_skills Samples.board Samples.job_plain).
  right. left. reflexivity.
Defined.



Lemma emitted_app {A : Type} (body : A -> option Job) (l1 l2 : list A) :
  emitted body (l1 ++ l2) = emitted body l1 ++ emitted body l2.
Proof. unfold emitted. apply flat_map_app. Qed.

Lemma emitted_cons_some {A : Type} (body : A -> option Job)
    (x : A) (l : list A) (j : Job) :
  body x = Some j -> emitted body (x :: l) = j :: emitted body l.
Proof. intros H. unfold emitted. simpl. now rewrite H. Qed.

(** X10. RemoteOK records come out in document order: when one row
    stands before another among the first 30 and both yield a record,
    the record of the first stands before the record of the second. *)
Theorem remoteok_document_order (soup : PageElement)
    (before between after : list PageElement) (r1 r2 : PageElement)
    (j1 j2 : Job) :
  firstn 30 (RemoteOK.job_rows soup) = before ++ r1 :: between ++ r2 :: after ->
  RemoteOK.row r1 = Some j1 ->
  RemoteOK.row r2 = Some j2 ->
  exists x y z, RemoteOK.extract soup = x ++ j1 :: y ++ j2 :: z.
Proof.
  intros Hrows H1 H2. rewrite remoteok_extract_emitted, Hrows.
  exists (emitted RemoteOK.row before), (emitted RemoteOK.row between),
    (emitted RemoteOK.row after).
  rewrite emitted_app, (emitted_cons_some _ r1 _ j1 H1), emitted_app,
    (emitted_cons_some _ r2 _ j2 H2).
  reflexivity.
Qed.

Lemma remoteok_document_order_witness :
  exists x y z,
    RemoteOK.extract Samples.board
    = x ++ Samples.job_six :: y ++ Samples.job_plain :: z.
Proof.
  apply (remoteok_document_order Samples.board
           [] [Samples.row_no_company] [] Samples.row_six Samples.row_plain);
    reflexivity.
Defined.

(** ** What the top-level selectors match *)

Lemma matches_tag_class (n c : string) (e : PageElement) :
  Css.matches [Css.tag_class n c] e = true ->
  exists tokens attrs contents,
    e = Tag n (Some tokens) attrs contents /\ In c tokens.
Proof.
  unfold Css.matches, Css.match_compound, Css.match_tag, Css.has_class,
    Css.tag_class.
  destruct e as [txt|name [tokens|] attrs contents];
    cbn [existsb forallb c_tag c_classes c_attrs Soup.tag_name
         Soup.get_class andb orb]; try discriminate.
  - rewrite orb_false_r, !andb_true_r. intros H. apply andb_prop in H.
    destruct H as [Hn Hc]. apply String.eqb_eq in Hn. subst name.
    apply existsb_eqb_in in Hc. eauto.
  - rewrite andb_false_r. discriminate.
Qed.

Lemma matches_tag_class_contains (n sub : string) (e : PageElement) :
  Css.matches [Css.tag_attr n (AttrContains "class" sub)] e = true ->
  exists tokens attrs contents,
    e = Tag n (Some tokens) attrs contents
    /\ PyStr.contains sub (PyStr.join " " tokens) = true.
Proof.
  unfold Css.matches, Css.match_compound, Css.match_tag, Css.match_attr,
    Soup.attribute_value, Css.tag_attr.
  destruct e as [txt|name [tokens|] attrs contents];
    cbn [existsb forallb c_tag c_classes c_attrs Soup.tag_name
         option_map andb orb]; try discriminate;
    rewrite String.eqb_refl; cbn [option_map].
  - rewrite orb_false_r, !andb_true_r. intros H. apply andb_prop in H.
    destruct H as [Hn Hc]. apply String.eqb_eq in Hn. subst name.
    apply andb_prop in Hc. destruct Hc as [_ Hc]. eauto.
  - rewrite andb_false_r. discriminate.
Qed.

Lemma job_rows_shape (soup job : PageElement) :
  In job (RemoteOK.job_rows soup) ->
  In job (Soup.descendants soup)
  /\ exists tokens attrs contents,
       job = Tag "tr" (Some tokens) attrs contents /\ In "job"%string tokens.
Proof.
  unfold RemoteOK.job_rows, Css.select. intros H. apply filter_In in H.
  destruct H as [Hd Hm]. split; [exact Hd|]. now apply matches_tag_class.
Qed.

Lemma job_elements_shape (soup : PageElement) (selector : Selector)
    (e : PageElement) :
  In selector Generic.job_selectors ->
  In e (Generic.job_elements selector soup) ->
  In e (Soup.descendants soup)
  /\ exists name tokens attrs contents,
       e = Tag name (Some tokens) attrs contents
       /\ In name ["div"; "article"; "li"]%string
       /\ (In "job"%string tokens \/ In "job-listing"%string tokens
           \/ PyStr.contains "job" (PyStr.join " " tokens) = true
           \/ PyStr.contains "listing" (PyStr.join " " tokens) = true).
Proof.
  intros Hs He. unfold Generic.job_elements in He. apply in_firstn in He.
  unfold Css.select in He. apply filter_In in He. destruct He as [Hd Hm].
  split; [exact Hd|]. simpl in Hs.
  destruct Hs as [<-|[<-|[<-|[<-|[<-|[<-|[]]]]]]];
    (apply matches_tag_class in Hm || apply matches_tag_class_contains in Hm);
    destruct Hm as (tokens & attrs & contents & -> & Hc);
    eexists _, tokens, attrs, contents; (split; [reflexivity|]);
    (split; [simpl; tauto | tauto]).
Qed.

(** X11. Every row the RemoteOK extractor works on is a [tr] tag below
    the document root whose class attribute has the token [job]. *)
Theorem remoteok_rows_are_tr_job (soup job : PageElement) :
  In job (firstn 30 (RemoteOK.job_rows soup)) ->
  In job (Soup.descendants soup)
  /\ exists tokens attrs contents,
       job = Tag "tr" (Some tokens) attrs contents /\ In "job"%string tokens.
Proof. intros H. apply in_firstn in H. now apply job_rows_shape. Qed.

Lemma remoteok_rows_are_tr_job_witness :
  In Samples.row_plain (firstn 30 (RemoteOK.job_rows Samples.board))
  /\ exists tokens attrs contents,
       Samples.row_plain = Tag "tr" (Some tokens) attrs contents
       /\ In "job"%string tokens.
Proof.
  assert (H : In Samples.row_plain (firstn 30 (RemoteOK.job_rows Samples.board)))
    by (right; right; left; reflexivity).
  split; [exact H|].
  exact (proj2 (remoteok_rows_are_tr_job Samples.board Samples.row_plain H)).
Defined.

(** X12. Every element the generic extractor works on is a [div],
    [article] or [li] tag below the document root that has a class
    attribute, with the token [job] or [job-listing] or with [job] or
    [listing] somewhere in the attribute. *)
Theorem generic_elements_are_listings (soup : PageElement)
    (selector : Selector) (e : PageElement) :
  In selector Generic.job_selectors ->
  In e (Generic.job_elements selector soup) ->
  In e (Soup.descendants soup)
  /\ exists name tokens attrs contents,
       e = Tag name (Some tokens) attrs contents
       /\ In name ["div"; "article"; "li"]%string
       /\ (In "job"%string tokens \/ In "job-listing"%string tokens
           \/ PyStr.contains "job" (PyStr.join " " tokens) = true
           \/ PyStr.contains "listing" (PyStr.join " " tokens) = true).
Proof. apply job_elements_shape. Qed.

Lemma generic_elements_are_listings_witness :
  In Pages.card
     (Generic.job_elements [Css.tag_attr "div" (AttrContains "class" "job")]
        Pages.generic_page)
  /\ In Pages.card (Soup.descendants Pages.generic_page).
Proof.
  assert (H : In Pages.card
                (Generic.job_elements
                   [Css.tag_attr "div" (AttrContains "class" "job")]
                   Pages.generic_page))
    by (right; left; reflexivity).
  split; [exact H|].
  refine (proj1 (generic_elements_are_listings Pages.generic_page _ Pages.card _ H)).
  simpl. tauto.
Defined.

Lemma nil_if_no_member {A : Type} (l : list A) :
  (forall x, In x l -> False) -> l = [].
Proof. destruct l as [|x l]; [reflexivity|]. intros H. destruct (H x). now left. Qed.

(** X13. A page none of whose tags has a class attribute yields no job:
    whatever the URL, [scrape_data] returns the sentinel row for it. *)
Theorem classless_page_gives_sentinel (web : Web) (url : string)
    (soup : PageElement) :
  fetch_soup web url = inr soup ->
  (forall name cls attrs contents,
      In (Tag name cls attrs contents) (Soup.descendants soup) -> cls = None) ->
  scrape_data web url = [sentinel url].
Proof.
  intros F Hnone. rewrite (scrape_data_fetched web url soup F).
  assert (HR : RemoteOK.extract soup = []).
  { unfold RemoteOK.extract.
    rewrite (nil_if_no_member (RemoteOK.job_rows soup)); [reflexivity|].
    intros job H. apply job_rows_shape in H.
    destruct H as (Hd & tokens & attrs & contents & -> & _).
    apply Hnone in Hd. discriminate. }
  assert (HG : Generic.extract url soup = []).
  { apply generic_extract_nil. intros selector Hs. apply nil_if_no_member.
    intros e He. unfold Css.select in He. apply filter_In in He.
    destruct He as [Hd Hm]. simpl in Hs.
    destruct Hs as [<-|[<-|[<-|[<-|[<-|[<-|[]]]]]]];
      (apply matches_tag_class in Hm || apply matches_tag_class_contains in Hm);
      destruct Hm as (tokens & attrs & contents & -> & _);
      apply Hnone in Hd; discriminate. }
  rewrite HR, HG. now destruct (PyStr.contains "remoteok.com" url).
Qed.

Lemma classless_page_gives_sentinel_witness :
  Css.select_one Generic.title_selector Samples.classless
  = Some (Pages.leaf "h2" "Engineer")
  /\ scrape_data (Pages.serve Samples.classless) Sites.board_url
     = [sentinel Sites.board_url].
Proof.
  split; [reflexivity|].
  refine (classless_page_gives_sentinel (Pages.serve Samples.classless)
            Sites.board_url Samples.classless eq_refl _).
  intros name cls attrs contents H. simpl in H.
  repeat (destruct H as [H|H]; [inversion H; reflexivity|]). destruct H.
Defined.

(** ** The URL that [main] scrapes *)

Lemma prefix_append (p s : string) : String.prefix p (p ++ s) = true.
Proof.
  induction p as [|a p IH]; simpl.
  - now destruct s.
  - destruct (ascii_dec a a) as [_|N]; [exact IH | now destruct N].
Qed.

Lemma main_url_has_http (arg : string) :
  PyStr.startswith (main_url arg) "http://" = true
  \/ PyStr.startswith (main_url arg) "https://" = true.
Proof.
  unfold main_url.
  destruct (PyStr.startswith arg "http://") eqn:A; [now left|].
  destruct (PyStr.startswith arg "https://") eqn:B; [now right|].
  right. cbn [orb negb]. apply prefix_append.
Qed.

Lemma main_url_fixed (url : string) :
  PyStr.startswith url "http://" = true
  \/ PyStr.startswith url "https://" = true ->
  main_url url = url.
Proof.
  unfold main_url. intros [H|H]; rewrite H; [|rewrite orb_true_r]; reflexivity.
Qed.

(** X14. The URL [main] hands to [scrape_data] always starts with
    [http://] or [https://].  Completing a URL a second time changes
    nothing, so an argument and its completed form give the same run. *)
Theorem main_url_idempotent (web : Web) (arg : string) :
  (PyStr.startswith (main_url arg) "http://" = true
   \/ PyStr.startswith (main_url arg) "https://" = true)
  /\ main_url (main_url arg) = main_url arg
  /\ main web (Some (main_url arg)) = main web (Some arg).
Proof.
  pose proof (main_url_fixed (main_url arg) (main_url_has_http arg)) as H.
  split; [apply main_url_has_http|]. split; [exact H|].
  unfold main. now rewrite H.
Qed.

Lemma contains_after_scheme (arg : string) :
  PyStr.contains "remoteok.com" ("https://" ++ arg)
  = PyStr.contains "remoteok.com" arg.
Proof. reflexivity. Qed.

(** X15. Completing the URL does not change the extractor that runs:
    [main] uses the RemoteOK extractor exactly when the argument
    contains [remoteok.com], and it does so when no URL is given. *)
Theorem main_selects_by_argument (web : Web) (arg : string) :
  PyStr.contains "remoteok.com" (main_url arg)
  = PyStr.contains "remoteok.com" arg
  /\ selected_extractor web (main_url arg)
     = (if PyStr.contains "remoteok.com" arg
        then RemoteOK.scrape_remoteok web (main_url arg)
        else Generic.scrape_generic_jobs web (main_url arg))
  /\ main web None
     = match RemoteOK.scrape_remoteok web default_url with
       | inr (j :: js) => j :: js
       | _ => [sentinel default_url]
       end.
Proof.
  assert (H : PyStr.contains "remoteok.com" (main_url arg)
              = PyStr.contains "remoteok.com" arg).
  { unfold main_url.
    destruct (negb (PyStr.startswith arg "http://"
                    || PyStr.startswith arg "https://"));
      [apply contains_after_scheme | reflexivity]. }
  split; [exact H|]. split.
  - unfold selected_extractor. now rewrite H.
  - unfold main. change (main_url default_url) with default_url.
    unfold scrape_data, selected_extractor.
    change (PyStr.contains "remoteok.com" default_url) with true.
    destruct (RemoteOK.scrape_remoteok web default_url) as [e|[|j js]];
      reflexivity.
Qed.

(** ** When an extractor finds something *)

Lemma nonempty_has_member {A : Type} (l : list A) :
  l <> [] <-> exists x, In x l.
Proof.
  destruct l as [|x l]; split.
  - congruence.
  - intros (x & []).
  - intros _. exists x. now left.
  - discriminate.
Qed.

(** X16. The RemoteOK extractor returns at least one record exactly when
    one of the first 30 rows is not featured and has an [h3] and an
    [h2]; the generic extractor returns at least one record exactly
    when, for one of its selectors, one of the first 20 matches has a
    title candidate.  In every other case [scrape_data] is left with
    nothing and falls back on the sentinel row. *)
Theorem extraction_nonempty_iff (url : string) (soup : PageElement) :
  (RemoteOK.extract soup <> []
   <-> exists job,
         In job (firstn 30 (RemoteOK.job_rows soup))
         /\ RemoteOK.is_featured job = false
         /\ Css.select_one [Css.tag "h3"] job <> None
         /\ Css.select_one [Css.tag "h2"] job <> None)
  /\ (Generic.extract url soup <> []
      <-> exists selector job_elem,
            In selector Generic.job_selectors
            /\ In job_elem (Generic.job_elements selector soup)
            /\ Css.select_one Generic.title_selector job_elem <> None).
Proof.
  split.
  - rewrite nonempty_has_member. split.
    + intros (j & Hj). apply remoteok_extract_in in Hj.
      destruct Hj as (job & Hin & Hrow). exists job. split; [exact Hin|].
      apply remoteok_row_some in Hrow.
      destruct Hrow as (F & c & p & -> & -> & _).
      split; [exact F|]. split; discriminate.
    + intros (job & Hin & F & Hc & Hp).
      destruct (RemoteOK.row job) as [j|] eqn:R.
      * exists j. apply remoteok_extract_in. exists job. auto.
      * exfalso. unfold RemoteOK.row in R. rewrite F in R.
        destruct (Css.select_one [Css.tag "h3"] job); [|congruence].
        destruct (Css.select_one [Css.tag "h2"] job); [|congruence].
        discriminate.
  - split.
    + intros H. apply nonempty_has_member in H. destruct H as (j & Hj).
      apply generic_extract_in in Hj.
      destruct Hj as (selector & e & Hs & He & Hb & _).
      exists selector, e. split; [exact Hs|]. split; [exact He|].
      apply generic_element_some in Hb. destruct Hb as (t & -> & _).
      discriminate.
    + intros (selector & e & Hs & He & Ht).
      unfold Generic.extract. rewrite try_selectors_find.
      destruct (find (productive url soup) Generic.job_selectors) as [s|] eqn:F.
      * apply find_some in F. destruct F as [_ F].
        now apply productive_true.
      * exfalso. pose proof (find_none _ _ F selector Hs) as P.
        apply productive_false in P.
        destruct (Generic.element url e) as [j|] eqn:B.
        -- assert (Hj : In j (selector_records url soup selector))
             by (apply emitted_in; exists e; auto).
           rewrite P in Hj. destruct Hj.
        -- unfold Generic.element in B.
           destruct (Css.select_one Generic.title_selector e);
             [discriminate | congruence].
Qed.

Lemma extraction_nonempty_iff_witness :
  RemoteOK.extract Samples.board <> []
  /\ Generic.extract Sites.board_url Pages.generic_page <> [].
Proof.
  split.
  - apply (proj2 (proj1 (extraction_nonempty_iff Sites.board_url Samples.board))).
    exists Samples.row_plain. split; [right; right; left; reflexivity|].
    split; [reflexivity|]. split; discriminate.
  - apply (proj2 (proj2 (extraction_nonempty_iff Sites.board_url
                           Pages.generic_page))).
    exists [Css.tag_attr "div" (AttrContains "class" "job")], Pages.card.
    split; [simpl; tauto|]. split; [right; left; reflexivity | discriminate].
Defined.

(** ** The requested URL in generic records *)

Lemma generic_element_with_source (url url' : string) (e : PageElement) :
  Generic.element url e = option_map (with_source url) (Generic.element url' e).
Proof.
  unfold Generic.element.
  destruct (Css.select_one Generic.title_selector e); reflexivity.
Qed.

Lemma emitted_with_source (url url' : string) (l : list PageElement) :
  emitted (Generic.element url) l
  = map (with_source url) (emitted (Generic.element url') l).
Proof.
  induction l as [|e l IH]; [reflexivity|].
  unfold emitted in *. cbn [flat_map]. rewrite map_app, <- IH.
  rewrite (generic_element_with_source url url' e).
  destruct (Generic.element url' e); reflexivity.
Qed.

Lemma productive_any_url (url url' : string) (soup : PageElement)
    (s : Selector) :
  productive url soup s = productive url' soup s.
Proof.
  unfold productive, selector_records.
  rewrite (emitted_with_source url url').
  destruct (emitted (Generic.element url') (Generic.job_elements s soup));
    reflexivity.
Qed.

Lemma find_same {A : Type} (p q : A -> bool) (l : list A) :
  (forall x, p x = q x) -> find p l = find q l.
Proof.
  intros H. induction l as [|x l IH]; simpl; [reflexivity|].
  now rewrite H, IH.
Qed.

(** X17. The generic extractor uses the requested URL for the source
    field and for nothing else: on the same document two URLs give the
    same records up to their source.  In particular a relative [href]
    is kept as it is, not resolved against the URL. *)
Theorem generic_url_only_in_source (url url' : string) (soup : PageElement) :
  Generic.extract url soup = map (with_source url) (Generic.extract url' soup).
Proof.
  unfold Generic.extract. rewrite !try_selectors_find.
  rewrite (find_same _ _ _ (productive_any_url url url' soup)).
  destruct (find (productive url' soup) Generic.job_selectors); [|reflexivity].
  apply emitted_with_source.
Qed.
